(** * The Azure OpenAI chat gateway of [api.py]

    A shallow embedding of the request path of [api.py]: the configuration
    loader [ChatAPI.__init__], the completion gateway
    [ChatAPI.create_chat_completion] with [_build_messages], and the HTTP
    boundary [chat_endpoint] behind [POST /chat].

    Python values are a small dynamic universe ([pyval]); exceptions are
    values of [exn]; code that may raise lives in [result]; code that talks to
    the upstream completion service threads a [world] that records every
    parameter record handed to the SDK's completion call.  The third-party libraries the
    module calls (azure.identity, openai, json, starlette, pydantic) are the
    fields of the class [Libs]: every statement below holds for all of them. *)

From Stdlib Require Import ZArith Floats.
From stdpp Require Import base option list gmap strings.

#[local] Set Warnings "-inexact-float,-register-all".

(** ** Python values *)

(** [PyDict] keeps insertion order, as Python dictionaries do; its keys are
    strings and pairwise distinct.  [PyObj cls attrs] is an instance of the
    SDK class [cls] (a pydantic model of the openai package) with its data
    attributes. *)
Inductive pyval : Type :=
| PyNone
| PyBool (b : bool)
| PyInt (n : Z)
| PyFloat (f : float)
| PyStr (s : string)
| PyList (xs : list pyval)
| PyDict (kvs : list (string * pyval))
| PyObj (cls : string) (attrs : list (string * pyval)).

(** Exceptions, all of them instances of [Exception]: [Exc kind msg] is an
    instance [e] of the class named [kind] with [str(e) = msg];
    [HTTPException] is fastapi's, with its two fields. *)
Inductive exn : Type :=
| Exc (kind msg : string)
| HTTPException (status_code : Z) (detail : pyval).

Inductive result (A : Type) : Type :=
| Return (a : A)
| Raise (e : exn).
Arguments Return {A} a.
Arguments Raise {A} e.

#[global] Instance result_ret : MRet result := fun A a => Return a.
#[global] Instance result_bind : MBind result := fun A B k r =>
  match r with
  | Return a => k a
  | Raise e => Raise e
  end.

(** ** The libraries the module calls *)

Class Libs : Type := {
  (* azure.identity *)
  Credential : Type;
  TokenProvider : Type;
  ClientSecretCredential : string -> string -> string -> result Credential;
  get_bearer_token_provider : Credential -> string -> result TokenProvider;
  (* openai: the client constructor, the completion call, and the
     [to_json] method of its response models *)
  Client : Type;
  AzureOpenAI : string -> TokenProvider -> string -> result Client;
  completions_create : Client -> pyval -> result pyval;
  model_to_json : string -> list (string * pyval) -> result string;
  (* json *)
  json_loads : string -> result pyval;
  (* starlette: [str] of an [HTTPException] (empty in old releases,
     "<status>: <detail>" in recent ones) *)
  str_HTTPException : Z -> pyval -> string;
  (* pydantic: what a field accepts besides a JSON value of exactly its
     annotated type (lax-mode coercions), and the body of a 422 answer *)
  lax_str : pyval -> option string;
  lax_int : pyval -> option Z;
  lax_float : pyval -> option float;
  lax_bool : pyval -> option bool;
  validation_detail : pyval -> pyval;
}.

(** ** Dynamic operations of the interpreter *)

Definition type_name (v : pyval) : string :=
  match v with
  | PyNone => "NoneType"
  | PyBool _ => "bool"
  | PyInt _ => "int"
  | PyFloat _ => "float"
  | PyStr _ => "str"
  | PyList _ => "list"
  | PyDict _ => "dict"
  | PyObj cls _ => cls
  end.

(** [type(e).__name__] *)
Definition exn_type_name (e : exn) : string :=
  match e with
  | Exc kind _ => kind
  | HTTPException _ _ => "HTTPException"
  end.

(** [str(e)] *)
Definition str `{Libs} (e : exn) : string :=
  match e with
  | Exc _ msg => msg
  | HTTPException status_code detail => str_HTTPException status_code detail
  end.

Fixpoint assoc {A : Type} (k : string) (kvs : list (string * A)) : option A :=
  match kvs with
  | [] => None
  | (k', v) :: rest => if String.eqb k' k then Some v else assoc k rest
  end.

Definition AttributeError (v : pyval) (name : string) : exn :=
  Exc "AttributeError"
      ("'" +:+ type_name v +:+ "' object has no attribute '" +:+ name +:+ "'").

(** [v.name], for the attribute names this module reads ([choices],
    [message], [content], [completion], [to_json]): no built-in type has
    any of them, an SDK object has the ones it was built with. *)
Definition getattr (v : pyval) (name : string) : result pyval :=
  match v with
  | PyObj _ attrs =>
      match assoc name attrs with
      | Some x => Return x
      | None => Raise (AttributeError v name)
      end
  | _ => Raise (AttributeError v name)
  end.

(** [v.to_json()] *)
Definition call_to_json `{Libs} (v : pyval) : result string :=
  match v with
  | PyObj cls attrs => model_to_json cls attrs
  | _ => Raise (AttributeError v "to_json")
  end.

(** [bool(v)], as [if v] and [... if v else ...] take it *)
Definition truthy (v : pyval) : bool :=
  match v with
  | PyNone => false
  | PyBool b => b
  | PyInt n => negb (n =? 0)%Z
  | PyFloat f => negb (f =? 0)%float
  | PyStr s => negb (String.eqb s "")
  | PyList xs => match xs with [] => false | _ => true end
  | PyDict kvs => match kvs with [] => false | _ => true end
  | PyObj _ _ => true
  end.

Definition is_substring (needle s : string) : bool :=
  match String.index 0 needle s with
  | Some _ => true
  | None => false
  end.

(** [key in v] for a string [key]: a key of a dictionary, an element of a
    list, a substring of a string.  Iterating a pydantic model yields
    (name, value) pairs, none of which equals a string. *)
Definition py_in (key : string) (v : pyval) : result bool :=
  match v with
  | PyDict kvs => Return (existsb (fun kv => String.eqb (fst kv) key) kvs)
  | PyList xs =>
      Return (existsb (fun x => match x with
                                | PyStr s => String.eqb s key
                                | _ => false
                                end) xs)
  | PyStr s => Return (is_substring key s)
  | PyObj _ _ => Return false
  | _ => Raise (Exc "TypeError"
                    ("argument of type '" +:+ type_name v +:+ "' is not iterable"))
  end.

(** [v[0]] *)
Definition getitem0 (v : pyval) : result pyval :=
  match v with
  | PyList xs =>
      match xs with
      | x :: _ => Return x
      | [] => Raise (Exc "IndexError" "list index out of range")
      end
  | PyStr s =>
      match s with
      | String c _ => Return (PyStr (String c EmptyString))
      | EmptyString => Raise (Exc "IndexError" "string index out of range")
      end
  | PyDict _ => Raise (Exc "KeyError" "0")
  | _ => Raise (Exc "TypeError"
                    ("'" +:+ type_name v +:+ "' object is not subscriptable"))
  end.

(** ** The world: what the SDK's completion call and stderr were handed *)

(** [sent] holds the parameter records of the calls of
    [client.chat.completions.create], one entry per call of the method, in
    order.  What the SDK makes of one call on the wire (fetching a token,
    repeating a request the service refused) is inside the library and is
    not represented: [sent] tells what was asked, not how many HTTP requests
    reached the service. *)

Record world : Type := World {
  sent : list pyval;
  stderr : list exn;
}.

Definition M (A : Type) : Type := world -> result A * world.

#[global] Instance M_ret : MRet M := fun A a w => (Return a, w).
#[global] Instance M_bind : MBind M := fun A B k m w =>
  match m w with
  | (Return a, w') => k a w'
  | (Raise e, w') => (Raise e, w')
  end.

Definition lift {A : Type} (r : result A) : M A := fun w => (r, w).

Definition raise {A : Type} (e : exn) : M A := fun w => (Raise e, w).

(** [try: body / except Exception as e: handler e] *)
Definition try_except {A : Type} (body : M A) (handler : exn -> M A) : M A :=
  fun w =>
    match body w with
    | (Return a, w') => (Return a, w')
    | (Raise e, w') => handler e w'
    end.

(** The same statement where nothing touches the world *)
Definition try_result {A : Type} (body : result A) (handler : exn -> result A)
  : result A :=
  match body with
  | Return a => Return a
  | Raise e => handler e
  end.

(** One call of [client.chat.completions.create] with the entries of
    [params] as keyword arguments: the call is recorded with [params], and
    returns or raises what the SDK returns or raises for it. *)
Definition chat_completions_create `{Libs} (c : Client) (params : pyval) : M pyval :=
  fun w => (completions_create c params,
            {| sent := sent w ++ [params]; stderr := stderr w |}).

(** [traceback.print_exc()] *)
Definition print_exc (e : exn) : M unit :=
  fun w => (Return tt, {| sent := sent w; stderr := stderr w ++ [e] |}).

(** ** Configuration and credential loader *)

Record ChatAPI `{Libs} : Type := {
  endpoint : string;
  deployment : string;
  api_version : string;
  client : Client;
}.

(** The process environment, after [load_dotenv()]: [os.getenv name] is
    [env !! name]. *)
Definition _get_required_env (env : gmap string string) (var_name : string)
  : result string :=
  let missing := Exc "ValueError"
                     ("Missing required environment variable: " +:+ var_name) in
  match env !! var_name with
  | Some value => if negb (truthy (PyStr value)) then Raise missing
                  else Return value
  | None => Raise missing
  end.

Definition _initialize_client `{Libs} (env : gmap string string)
    (self_endpoint self_api_version : string) : result Client :=
  try_result
    (tenant_id ← _get_required_env env "AZURE_TENANT_ID";
     client_id ← _get_required_env env "AZURE_CLIENT_ID";
     client_secret ← _get_required_env env "AZURE_CLIENT_SECRET";
     credential ← ClientSecretCredential tenant_id client_id client_secret;
     token_provider ← get_bearer_token_provider
                        credential "https://cognitiveservices.azure.com/.default";
     AzureOpenAI self_endpoint token_provider self_api_version)
    (fun e => Raise (Exc "Exception"
                         ("Failed to initialize Azure OpenAI client: " +:+ str e))).

Definition __init__ `{Libs} (env : gmap string string) : result ChatAPI :=
  endpoint ← _get_required_env env "AZURE_OPENAI_ENDPOINT";
  deployment ← _get_required_env env "AZURE_OPENAI_DEPLOYMENT_NAME";
  let api_version := default "2025-01-01-preview"
                             (env !! "AZURE_OPENAI_API_VERSION") in
  client ← _initialize_client env endpoint api_version;
  Return {| endpoint := endpoint; deployment := deployment;
            api_version := api_version; client := client |}.

(** The module body: [chat_api = ChatAPI()] runs at import, before the
    application can be served; an exception there ends the process. *)
Inductive process `{Libs} : Type :=
| Aborted (e : exn)
| Serving (chat_api : ChatAPI).

Definition main `{Libs} (env : gmap string string) : process :=
  match __init__ env with
  | Return chat_api => Serving chat_api
  | Raise e => Aborted e
  end.

(** ** Completion gateway *)

Definition default_system_message : pyval :=
  PyDict [("role", PyStr "system");
          ("content", PyList [PyDict [("type", PyStr "text");
                                      ("text", PyStr "You are an AI assistant that helps people find information.")]])].

Definition _build_messages (user_message : string)
    (system_message : option string) : pyval :=
  let messages := [] in
  let messages :=
    match system_message with
    | Some text =>
        if truthy (PyStr text)
        then messages ++ [PyDict
               [("role", PyStr "system");
                ("content", PyList [PyDict [("type", PyStr "text");
                                            ("text", PyStr text)]])]]
        else messages ++ [default_system_message]
    | None => messages ++ [default_system_message]
    end in
  let messages := messages ++ [PyDict
           [("role", PyStr "user");
            ("content", PyList [PyDict [("type", PyStr "text");
                                        ("text", PyStr user_message)]])]] in
  PyList messages.

(** [kwargs.get(key, dflt)] *)
Definition kwargs_get (kwargs : gmap string pyval) (key : string) (dflt : pyval)
  : pyval :=
  default dflt (kwargs !! key).

Definition create_chat_completion `{Libs} (self : ChatAPI)
    (user_message : string) (system_message : option string)
    (kwargs : gmap string pyval) : M pyval :=
  try_except
    (let messages := _build_messages user_message system_message in
     let params := PyDict
       [("model", PyStr (deployment self));
        ("messages", messages);
        ("max_tokens", kwargs_get kwargs "max_tokens" (PyInt 800));
        ("temperature", kwargs_get kwargs "temperature" (PyFloat 0.7));
        ("top_p", kwargs_get kwargs "top_p" (PyFloat 0.95));
        ("frequency_penalty", kwargs_get kwargs "frequency_penalty" (PyInt 0));
        ("presence_penalty", kwargs_get kwargs "presence_penalty" (PyInt 0));
        ("stop", kwargs_get kwargs "stop" PyNone);
        ("stream", kwargs_get kwargs "stream" (PyBool false))] in
     completion ← chat_completions_create (client self) params;
     choices ← lift (getattr completion "choices");
     message ← lift (getattr choices "message");
     content ← lift (getattr message "content");
     text ← lift (call_to_json content);
     lift (json_loads text))
    (fun e => mret (PyDict [("error", PyStr (str e));
                            ("type", PyStr (exn_type_name e))])).

(** ** HTTP boundary *)

(** A validated request body.  [user_message] is a [str], [system_message]
    an [Optional[str]]; the generation knobs are kept as the values that
    travel on to the gateway. *)
Record ChatRequest : Type := {
  user_message : string;
  system_message : option string;
  max_tokens : pyval;
  temperature : pyval;
  top_p : pyval;
  frequency_penalty : pyval;
  presence_penalty : pyval;
  stop : pyval;
  stream : pyval;
}.

(** Field validators of the schema: a JSON value of the annotated type is
    taken as it is, anything else is left to pydantic's coercions.  A field
    annotated [str] (not [Optional]) refuses [null]. *)
Definition validate_str `{Libs} (v : pyval) : option string :=
  match v with
  | PyStr s => Some s
  | PyNone => None
  | _ => lax_str v
  end.

Definition validate_int `{Libs} (v : pyval) : option pyval :=
  match v with
  | PyInt n => Some (PyInt n)
  | _ => PyInt <$> lax_int v
  end.

Definition validate_float `{Libs} (v : pyval) : option pyval :=
  match v with
  | PyFloat f => Some (PyFloat f)
  | _ => PyFloat <$> lax_float v
  end.

Definition validate_bool `{Libs} (v : pyval) : option pyval :=
  match v with
  | PyBool b => Some (PyBool b)
  | _ => PyBool <$> lax_bool v
  end.

Definition validate_list (v : pyval) : option pyval :=
  match v with
  | PyList xs => Some (PyList xs)
  | _ => None
  end.

(** A field declared [name: Optional[T] = dflt]: the default when the body
    has no such key (defaults are not validated), [None] for [null]. *)
Definition optional_field (validate : pyval -> option pyval) (dflt : pyval)
    (body : list (string * pyval)) (name : string) : option pyval :=
  match assoc name body with
  | None => Some dflt
  | Some PyNone => Some PyNone
  | Some v => validate v
  end.

(** Validation of a JSON body against [ChatRequest]; [None] stands for the
    422 answer.  Keys the schema does not declare are ignored. *)
Definition validate_ChatRequest `{Libs} (body : pyval) : option ChatRequest :=
  match body with
  | PyDict kvs =>
      user_message ← assoc "user_message" kvs ≫= validate_str;
      system_message ←
        match assoc "system_message" kvs with
        | None => Some None
        | Some PyNone => Some None
        | Some v => Some <$> validate_str v
        end;
      max_tokens ← optional_field validate_int (PyInt 800) kvs "max_tokens";
      temperature ← optional_field validate_float (PyFloat 0.7) kvs "temperature";
      top_p ← optional_field validate_float (PyFloat 0.95) kvs "top_p";
      frequency_penalty ←
        optional_field validate_float (PyInt 0) kvs "frequency_penalty";
      presence_penalty ←
        optional_field validate_float (PyInt 0) kvs "presence_penalty";
      stop ← optional_field validate_list PyNone kvs "stop";
      stream ← optional_field validate_bool (PyBool false) kvs "stream";
      Some {| user_message := user_message; system_message := system_message;
              max_tokens := max_tokens; temperature := temperature;
              top_p := top_p; frequency_penalty := frequency_penalty;
              presence_penalty := presence_penalty; stop := stop;
              stream := stream |}
  | _ => None
  end.

Definition chat_endpoint `{Libs} (chat_api : ChatAPI) (chat_request : ChatRequest)
  : M pyval :=
  try_except
    (response ← create_chat_completion chat_api
                  (user_message chat_request)
                  (system_message chat_request)
                  (list_to_map
                     [("max_tokens", max_tokens chat_request);
                      ("temperature", temperature chat_request);
                      ("top_p", top_p chat_request);
                      ("frequency_penalty", frequency_penalty chat_request);
                      ("presence_penalty", presence_penalty chat_request);
                      ("stop", stop chat_request);
                      ("stream", stream chat_request)]);
     has_error ← lift (py_in "error" response);
     if (has_error : bool)
     then raise (HTTPException 500 response)
     else
       completion ← lift (getattr response "completion");
       choices ← lift (getattr completion "choices");
       if truthy choices
       then
         completion ← lift (getattr response "completion");
         choices ← lift (getattr completion "choices");
         choice ← lift (getitem0 choices);
         message ← lift (getattr choice "message");
         lift (getattr message "content")
       else mret (PyDict [("message", PyStr "No content returned")]))
    (fun e =>
       _ ← print_exc e;
       raise (HTTPException 500 (PyStr (str e)))).

Inductive http_response : Type :=
| Response (status : Z) (body : pyval).

Definition status_of (r : http_response) : Z :=
  match r with Response status _ => status end.

Definition body_of (r : http_response) : pyval :=
  match r with Response _ body => body end.

(** What fastapi does with [POST /chat]: a body the schema refuses is
    answered 422 without calling the endpoint; the endpoint's return value
    is the body of a 200 answer; an [HTTPException] becomes its status with
    the body [{"detail": detail}]; any other exception is a plain 500. *)
Definition post_chat `{Libs} (chat_api : ChatAPI) (body : pyval)
  : world -> http_response * world :=
  fun w =>
    match validate_ChatRequest body with
    | None => (Response 422 (PyDict [("detail", validation_detail body)]), w)
    | Some chat_request =>
        match chat_endpoint chat_api chat_request w with
        | (Return v, w') => (Response 200 v, w')
        | (Raise (HTTPException status_code detail), w') =>
            (Response status_code (PyDict [("detail", detail)]), w')
        | (Raise (Exc _ _), w') =>
            (Response 500 (PyStr "Internal Server Error"), w')
        end
    end.

(** ** Vocabulary of the statements *)

(** The error record of the gateway for an exception [e] *)
Definition error_record `{Libs} (e : exn) : pyval :=
  PyDict [("error", PyStr (str e)); ("type", PyStr (exn_type_name e))].

(** The "no content" marker of the boundary *)
Definition no_content : pyval :=
  PyDict [("message", PyStr "No content returned")].

(** Responses of the upstream service as the SDK hands them over: a
    [ChatCompletion] object whose [choices] attribute is a list of [Choice]
    objects, each with a message that has a content. *)
Definition Choice (content : pyval) : pyval :=
  PyObj "Choice" [("message", PyObj "ChatCompletionMessage" [("content", content)])].

Definition ChatCompletion (choices : list pyval) : pyval :=
  PyObj "ChatCompletion" [("choices", PyList choices)].

(** The parameter record the gateway builds *)
Definition request_params (model : string) (messages : pyval)
    (max_tokens temperature top_p frequency_penalty presence_penalty stop stream : pyval)
  : pyval :=
  PyDict [("model", PyStr model);
          ("messages", messages);
          ("max_tokens", max_tokens);
          ("temperature", temperature);
          ("top_p", top_p);
          ("frequency_penalty", frequency_penalty);
          ("presence_penalty", presence_penalty);
          ("stop", stop);
          ("stream", stream)].

Definition dict_get (key : string) (v : pyval) : option pyval :=
  match v with
  | PyDict kvs => assoc key kvs
  | _ => None
  end.

(** Role and text of an assembled message *)
Definition message_role (m : pyval) : option pyval := dict_get "role" m.

Definition message_text (m : pyval) : option pyval :=
  match dict_get "content" m with
  | Some (PyList [block]) => dict_get "text" block
  | _ => None
  end.

(** The message list of the latest parameter record handed to the
    completion call *)
Definition upstream_messages (w : world) : option pyval :=
  last (sent w) ≫= dict_get "messages".

(** The required settings, in the order the loader reads them *)
Definition required_env : list string :=
  ["AZURE_OPENAI_ENDPOINT"; "AZURE_OPENAI_DEPLOYMENT_NAME";
   "AZURE_TENANT_ID"; "AZURE_CLIENT_ID"; "AZURE_CLIENT_SECRET"].

Definition missing (env : gmap string string) (var_name : string) : Prop :=
  env !! var_name = None \/ env !! var_name = Some "".

(** *** Test doubles *)

(** Libraries that always succeed, around an upstream service [upstream];
    no coercions, and the [str] of an [HTTPException] of old starlette. *)
Definition test_libs (upstream : pyval -> result pyval) : Libs := {|
  Credential := string * string * string;
  TokenProvider := string;
  ClientSecretCredential tenant_id client_id client_secret :=
    Return (tenant_id, client_id, client_secret);
  get_bearer_token_provider _ scope := Return scope;
  Client := string;
  AzureOpenAI azure_endpoint _ _ := Return azure_endpoint;
  completions_create _ params := upstream params;
  model_to_json _ _ := Return "{}";
  json_loads _ := Return (PyDict []);
  str_HTTPException _ _ := "";
  lax_str _ := None;
  lax_int _ := None;
  lax_float _ := None;
  lax_bool _ := None;
  validation_detail _ := PyList [];
|}.

Definition test_api (upstream : pyval -> result pyval)
  : @ChatAPI (test_libs upstream) :=
  @Build_ChatAPI (test_libs upstream)
    "https://example.openai.azure.com" "gpt-4o" "2025-01-01-preview"
    "https://example.openai.azure.com".

Definition test_env : gmap string string :=
  list_to_map [("AZURE_OPENAI_ENDPOINT", "https://example.openai.azure.com");
               ("AZURE_OPENAI_DEPLOYMENT_NAME", "gpt-4o");
               ("AZURE_TENANT_ID", "tenant");
               ("AZURE_CLIENT_ID", "client");
               ("AZURE_CLIENT_SECRET", "secret")].

Definition empty_world : world := {| sent := []; stderr := [] |}.

Definition healthy_upstream (params : pyval) : result pyval :=
  Return (ChatCompletion [Choice (PyStr "Hi there!")]).

Definition silent_upstream (params : pyval) : result pyval :=
  Return (ChatCompletion []).

Definition failing_upstream (params : pyval) : result pyval :=
  Raise (Exc "RateLimitError" "quota exceeded").

Definition hello_body : pyval := PyDict [("user_message", PyStr "Hello")].

(** The parameter record of one gateway call *)
Definition gateway_params `{Libs} (self : ChatAPI) (user_message : string)
    (system_message : option string) (kwargs : gmap string pyval) : pyval :=
  request_params (deployment self) (_build_messages user_message system_message)
    (default (PyInt 800) (kwargs !! "max_tokens"))
    (default (PyFloat 0.7) (kwargs !! "temperature"))
    (default (PyFloat 0.95) (kwargs !! "top_p"))
    (default (PyInt 0) (kwargs !! "frequency_penalty"))
    (default (PyInt 0) (kwargs !! "presence_penalty"))
    (default PyNone (kwargs !! "stop"))
    (default (PyBool false) (kwargs !! "stream")).

(** The keyword arguments the boundary passes to the gateway *)
Definition endpoint_kwargs (chat_request : ChatRequest) : gmap string pyval :=
  list_to_map
    [("max_tokens", max_tokens chat_request);
     ("temperature", temperature chat_request);
     ("top_p", top_p chat_request);
     ("frequency_penalty", frequency_penalty chat_request);
     ("presence_penalty", presence_penalty chat_request);
     ("stop", stop chat_request);
     ("stream", stream chat_request)].

(** What validation makes of [hello_body] and of a body whose
    [user_message] is the empty string *)
Definition request_with (text : string) : ChatRequest :=
  {| user_message := text; system_message := None;
     max_tokens := PyInt 800; temperature := PyFloat 0.7; top_p := PyFloat 0.95;
     frequency_penalty := PyInt 0; presence_penalty := PyInt 0;
     stop := PyNone; stream := PyBool false |}.

Definition hello_request : ChatRequest := request_with "Hello".

(** ** The liveness route *)

Definition health_check : M pyval :=
  mret (PyDict [("status", PyStr "healthy")]).

(** What fastapi does with [GET /health] *)
Definition get_health : world -> http_response * world :=
  fun w =>
    match health_check w with
    | (Return v, w') => (Response 200 v, w')
    | (Raise (HTTPException status_code detail), w') =>
        (Response status_code (PyDict [("detail", detail)]), w')
    | (Raise (Exc _ _), w') =>
        (Response 500 (PyStr "Internal Server Error"), w')
    end.

(** ** Further vocabulary *)

(** The fields [ChatRequest] declares *)
Definition schema_fields : list string :=
  ["user_message"; "system_message"; "max_tokens"; "temperature"; "top_p";
   "frequency_penalty"; "presence_penalty"; "stop"; "stream"].

(** The generation knobs of [ChatRequest] with their declared defaults *)
Definition knob_defaults : list (string * pyval) :=
  [("max_tokens", PyInt 800); ("temperature", PyFloat 0.7);
   ("top_p", PyFloat 0.95); ("frequency_penalty", PyInt 0);
   ("presence_penalty", PyInt 0); ("stop", PyNone); ("stream", PyBool false)].

(** The keyword arguments the gateway reads *)
Definition gateway_knobs : list string :=
  ["max_tokens"; "temperature"; "top_p"; "frequency_penalty";
   "presence_penalty"; "stop"; "stream"].

(** An entry of the latest parameter record handed to the completion call *)
Definition upstream_param (name : string) (w : world) : option pyval :=
  last (sent w) ≫= dict_get name.

Definition cognitive_services_scope : string :=
  "https://cognitiveservices.azure.com/.default".

(** Libraries whose identity provider refuses the credentials *)
Definition refusing_libs : Libs := {|
  Credential := unit;
  TokenProvider := unit;
  ClientSecretCredential _ _ _ :=
    Raise (Exc "ClientAuthenticationError" "invalid tenant");
  get_bearer_token_provider _ _ := Return tt;
  Client := unit;
  AzureOpenAI _ _ _ := Return tt;
  completions_create _ _ := Raise (Exc "APIConnectionError" "Connection error.");
  model_to_json _ _ := Return "{}";
  json_loads _ := Return (PyDict []);
  str_HTTPException _ _ := "";
  lax_str _ := None;
  lax_int _ := None;
  lax_float _ := None;
  lax_bool _ := None;
  validation_detail _ := PyList [];
|}.

(** The extraction of line 113,
    [json.loads(completion.choices.message.content.to_json())], on its own *)
Definition extract_content `{Libs} (completion : pyval) : result pyval :=
  choices ← getattr completion "choices";
  message ← getattr choices "message";
  content ← getattr message "content";
  text ← call_to_json content;
  json_loads text.

(** What the schema makes of the [system_message] entry of a body *)
Definition system_message_field `{Libs} (kvs : list (string * pyval))
  : option (option string) :=
  match assoc "system_message" kvs with
  | None => Some None
  | Some PyNone => Some None
  | Some v => Some <$> validate_str v
  end.

(** The fields of a body other than [user_message] are all acceptable *)
Definition other_fields_valid `{Libs} (kvs : list (string * pyval)) : Prop :=
  is_Some (system_message_field kvs)
  /\ is_Some (optional_field validate_int (PyInt 800) kvs "max_tokens")
  /\ is_Some (optional_field validate_float (PyFloat 0.7) kvs "temperature")
  /\ is_Some (optional_field validate_float (PyFloat 0.95) kvs "top_p")
  /\ is_Some (optional_field validate_float (PyInt 0) kvs "frequency_penalty")
  /\ is_Some (optional_field validate_float (PyInt 0) kvs "presence_penalty")
  /\ is_Some (optional_field validate_list PyNone kvs "stop")
  /\ is_Some (optional_field validate_bool (PyBool false) kvs "stream").

(** A service double whose answer has an object, not a list, under
    [choices]: the one shape line 113 can read through *)
Definition duck_upstream (params : pyval) : result pyval :=
  Return (PyObj "Completion"
            [("choices",
              PyObj "Choices"
                [("message",
                  PyObj "Message" [("content", PyObj "Content" [])])])]).

(** * Properties *)

(** ** The gateway, step by step *)

Section Gateway.
Context `{Libs}.
Variables (self : ChatAPI) (user_message : string)
          (system_message : option string) (kwargs : gmap string pyval).

Let params := gateway_params self user_message system_message kwargs.

#[local] Ltac run_gateway :=
  unfold params, gateway_params, request_params in *;
  unfold create_chat_completion, try_except, chat_completions_create, kwargs_get;
  unfold mbind, M_bind, lift, mret, M_ret.

(** Every call of the gateway makes exactly one completion call. *)
Lemma create_chat_completion_world (w : world) :
  snd (create_chat_completion self user_message system_message kwargs w)
  = {| sent := sent w ++ [params]; stderr := stderr w |}.
Proof.
  run_gateway.
  destruct (completions_create (client self) _) as [completion|e]; [|done].
  destruct (getattr completion "choices") as [choices|e]; [|done].
  destruct (getattr choices "message") as [message|e]; [|done].
  destruct (getattr message "content") as [content|e]; [|done].
  destruct (call_to_json content) as [text|e]; [|done].
  destruct (json_loads text); done.
Qed.

(** An exception of the service comes back as its error record. *)
Lemma create_chat_completion_raises (w : world) (e : exn) :
  completions_create (client self) params = Raise e ->
  fst (create_chat_completion self user_message system_message kwargs w)
  = Return (error_record e).
Proof.
  intros Hup.
  run_gateway. rewrite Hup. done.
Qed.

(** A response whose [choices] is a list never gets past
    [completion.choices.message]: a list has no such attribute. *)
Lemma create_chat_completion_list_choices (w : world) cls attrs choices :
  completions_create (client self) params = Return (PyObj cls attrs) ->
  assoc "choices" attrs = Some (PyList choices) ->
  fst (create_chat_completion self user_message system_message kwargs w)
  = Return (PyDict [("error", PyStr "'list' object has no attribute 'message'");
                    ("type", PyStr "AttributeError")]).
Proof.
  intros Hup Hchoices.
  run_gateway. rewrite Hup. simpl. rewrite Hchoices. done.
Qed.
End Gateway.

(** ** The boundary on an error record *)

Lemma error_record_has_error `{Libs} (e : exn) :
  py_in "error" (error_record e) = Return true.
Proof. reflexivity. Qed.

(** Once the gateway has returned a value in which ["error"] occurs, the
    [HTTPException] raised for it is caught by the handler around it, which
    raises a second one whose detail is the [str] of the first. *)
Lemma chat_endpoint_on_error `{Libs} (chat_api : ChatAPI)
    (chat_request : ChatRequest) (w : world) (response : pyval) :
  fst (create_chat_completion chat_api (user_message chat_request)
         (system_message chat_request) (endpoint_kwargs chat_request) w)
  = Return response ->
  py_in "error" response = Return true ->
  chat_endpoint chat_api chat_request w
  = (Raise (HTTPException 500 (PyStr (str_HTTPException 500 response))),
     {| sent := sent w ++ [gateway_params chat_api (user_message chat_request)
                             (system_message chat_request)
                             (endpoint_kwargs chat_request)];
        stderr := stderr w ++ [HTTPException 500 response] |}).
Proof.
  intros Hfst Hin.
  pose proof (create_chat_completion_world chat_api (user_message chat_request)
                (system_message chat_request) (endpoint_kwargs chat_request) w)
    as Hsnd.
  unfold chat_endpoint, try_except.
  change (list_to_map _) with (endpoint_kwargs chat_request).
  unfold mbind at 1. unfold M_bind at 1.
  destruct (create_chat_completion _ _ _ _ w) as [r w'].
  simpl in Hfst, Hsnd. subst r w'.
  unfold mbind, M_bind, lift. rewrite Hin. reflexivity.
Qed.

Lemma post_chat_on_error `{Libs} (chat_api : ChatAPI) (body : pyval)
    (chat_request : ChatRequest) (w : world) (response : pyval) :
  validate_ChatRequest body = Some chat_request ->
  fst (create_chat_completion chat_api (user_message chat_request)
         (system_message chat_request) (endpoint_kwargs chat_request) w)
  = Return response ->
  py_in "error" response = Return true ->
  fst (post_chat chat_api body w)
  = Response 500 (PyDict [("detail", PyStr (str_HTTPException 500 response))]).
Proof.
  intros Hvalid Hfst Hin. unfold post_chat. rewrite Hvalid.
  by rewrite (chat_endpoint_on_error _ _ _ _ Hfst Hin).
Qed.

(** A validated request always reaches the gateway, which hands its
    parameter record to the completion call. *)
Lemma chat_endpoint_sent `{Libs} (chat_api : ChatAPI)
    (chat_request : ChatRequest) (w : world) :
  sent (snd (chat_endpoint chat_api chat_request w))
  = sent w ++ [gateway_params chat_api (user_message chat_request)
                 (system_message chat_request) (endpoint_kwargs chat_request)].
Proof.
  pose proof (create_chat_completion_world chat_api (user_message chat_request)
                (system_message chat_request) (endpoint_kwargs chat_request) w)
    as Hsnd.
  unfold chat_endpoint, try_except.
  change (list_to_map _) with (endpoint_kwargs chat_request).
  unfold mbind at 1. unfold M_bind at 1.
  destruct (create_chat_completion _ _ _ _ w) as [r w'].
  simpl in Hsnd. subst w'.
  destruct r as [response|e]; [|done].
  unfold mbind, M_bind, lift, raise, mret, M_ret, print_exc.
  destruct (py_in "error" response) as [[|]|e]; [done| |done].
  destruct (getattr response "completion") as [completion|e]; [|done].
  destruct (getattr completion "choices") as [choices|e]; [|done].
  destruct (truthy choices); [|done].
  destruct (getitem0 choices) as [choice|e]; [|done].
  destruct (getattr choice "message") as [message|e]; [|done].
  destruct (getattr message "content"); done.
Qed.

(** ** Outcomes of [POST /chat] *)

(** C1 (the code departs from the claim).  When the service answers a
    validated request with a completion that has at least one choice, the
    gateway does not return the first choice's content: reading [message]
    off the list [completion.choices] raises [AttributeError], the gateway
    returns the error record of that exception, and [POST /chat] answers 500
    instead of 200. *)
Theorem first_choice_content_not_returned `{Libs} (chat_api : ChatAPI)
    (body : pyval) (chat_request : ChatRequest) (w : world)
    (choice : pyval) (choices : list pyval) :
  validate_ChatRequest body = Some chat_request ->
  completions_create (client chat_api)
    (gateway_params chat_api (user_message chat_request)
       (system_message chat_request) (endpoint_kwargs chat_request))
  = Return (ChatCompletion (choice :: choices)) ->
  fst (create_chat_completion chat_api (user_message chat_request)
         (system_message chat_request) (endpoint_kwargs chat_request) w)
  = Return (PyDict [("error", PyStr "'list' object has no attribute 'message'");
                    ("type", PyStr "AttributeError")])
  /\ status_of (fst (post_chat chat_api body w)) = 500%Z.
Proof.
  intros Hvalid Hup.
  assert (Hfst := create_chat_completion_list_choices _ _ _ _ w _ _ _ Hup eq_refl).
  split; [exact Hfst|].
  by rewrite (post_chat_on_error _ _ _ _ _ Hvalid Hfst eq_refl).
Qed.

Lemma hello_is_answered_500 :
  fst (create_chat_completion (test_api healthy_upstream) "Hello" None
         (endpoint_kwargs hello_request) empty_world)
  = Return (PyDict [("error", PyStr "'list' object has no attribute 'message'");
                    ("type", PyStr "AttributeError")])
  /\ status_of (fst (post_chat (test_api healthy_upstream) hello_body empty_world))
     = 500%Z.
Proof.
  apply (first_choice_content_not_returned (test_api healthy_upstream)
           hello_body hello_request empty_world (Choice (PyStr "Hi there!")) []);
    reflexivity.
Defined.

(** C2 (the code departs from the claim).  When the service answers a
    validated request with a completion that has no choice, the gateway
    does not return the "No content returned" marker: the same attribute
    access on the (empty) list raises, the gateway returns an error record,
    and [POST /chat] answers 500 with a body that is not the marker. *)
Theorem empty_choices_give_error_record `{Libs} (chat_api : ChatAPI)
    (body : pyval) (chat_request : ChatRequest) (w : world) :
  validate_ChatRequest body = Some chat_request ->
  completions_create (client chat_api)
    (gateway_params chat_api (user_message chat_request)
       (system_message chat_request) (endpoint_kwargs chat_request))
  = Return (ChatCompletion []) ->
  fst (create_chat_completion chat_api (user_message chat_request)
         (system_message chat_request) (endpoint_kwargs chat_request) w)
  = Return (PyDict [("error", PyStr "'list' object has no attribute 'message'");
                    ("type", PyStr "AttributeError")])
  /\ status_of (fst (post_chat chat_api body w)) = 500%Z
  /\ body_of (fst (post_chat chat_api body w)) <> no_content.
Proof.
  intros Hvalid Hup.
  assert (Hfst := create_chat_completion_list_choices _ _ _ _ w _ _ _ Hup eq_refl).
  split; [exact Hfst|].
  by rewrite (post_chat_on_error _ _ _ _ _ Hvalid Hfst eq_refl).
Qed.

Lemma no_choice_is_answered_500 :
  fst (create_chat_completion (test_api silent_upstream) "Hello" None
         (endpoint_kwargs hello_request) empty_world)
  = Return (PyDict [("error", PyStr "'list' object has no attribute 'message'");
                    ("type", PyStr "AttributeError")])
  /\ status_of (fst (post_chat (test_api silent_upstream) hello_body empty_world))
     = 500%Z
  /\ body_of (fst (post_chat (test_api silent_upstream) hello_body empty_world))
     <> no_content.
Proof.
  apply (empty_choices_give_error_record (test_api silent_upstream)
           hello_body hello_request empty_world); reflexivity.
Defined.

(** C3 (the code departs from the claim in its last part).  When the
    service raises an exception of kind [kind] with message [msg], the
    gateway returns the record with that message and kind and [POST /chat]
    answers 500; but the body does not carry the record: the
    [HTTPException] built around the record is caught by the endpoint's own
    handler, and the detail sent is the [str] of that exception, a
    string. *)
Theorem upstream_exception_answer `{Libs} (chat_api : ChatAPI)
    (body : pyval) (chat_request : ChatRequest) (w : world) (kind msg : string) :
  validate_ChatRequest body = Some chat_request ->
  completions_create (client chat_api)
    (gateway_params chat_api (user_message chat_request)
       (system_message chat_request) (endpoint_kwargs chat_request))
  = Raise (Exc kind msg) ->
  let record := PyDict [("error", PyStr msg); ("type", PyStr kind)] in
  fst (create_chat_completion chat_api (user_message chat_request)
         (system_message chat_request) (endpoint_kwargs chat_request) w)
  = Return record
  /\ status_of (fst (post_chat chat_api body w)) = 500%Z
  /\ body_of (fst (post_chat chat_api body w))
     = PyDict [("detail", PyStr (str_HTTPException 500 record))]
  /\ body_of (fst (post_chat chat_api body w)) <> PyDict [("detail", record)].
Proof.
  intros Hvalid Hup record.
  assert (Hfst := create_chat_completion_raises _ _ _ _ w _ Hup).
  split; [exact Hfst|].
  by rewrite (post_chat_on_error _ _ _ _ _ Hvalid Hfst eq_refl).
Qed.

Lemma rate_limit_is_answered_with_a_string :
  let record := PyDict [("error", PyStr "quota exceeded");
                        ("type", PyStr "RateLimitError")] in
  fst (create_chat_completion (test_api failing_upstream) "Hello" None
         (endpoint_kwargs hello_request) empty_world)
  = Return record
  /\ status_of (fst (post_chat (test_api failing_upstream) hello_body empty_world))
     = 500%Z
  /\ body_of (fst (post_chat (test_api failing_upstream) hello_body empty_world))
     = PyDict [("detail", PyStr "")]
  /\ body_of (fst (post_chat (test_api failing_upstream) hello_body empty_world))
     <> PyDict [("detail", record)].
Proof.
  apply (upstream_exception_answer (test_api failing_upstream)
           hello_body hello_request empty_world "RateLimitError" "quota exceeded");
    reflexivity.
Defined.

(** C6.  The gateway never lets an exception out: whatever the service
    and the libraries do, a call returns a value.  Message assembly cannot
    raise.  If the completion call raises [e], the value is the error record
    holding the message text and the kind name of [e]; if the call returns
    and the extraction of its answer raises [e], the value is the error
    record of that [e]; if both succeed, the value is the payload the
    extraction produced.  So the value is always a success payload or the
    error record of the very exception raised. *)
Theorem create_chat_completion_never_raises `{Libs} (self : ChatAPI)
    (user_message : string) (system_message : option string)
    (kwargs : gmap string pyval) (w : world) :
  (exists v,
     fst (create_chat_completion self user_message system_message kwargs w)
     = Return v
     /\ ((exists text, json_loads text = Return v)
         \/ (exists e, v = PyDict [("error", PyStr (str e));
                                   ("type", PyStr (exn_type_name e))])))
  /\ (forall e,
        completions_create (client self)
          (gateway_params self user_message system_message kwargs) = Raise e ->
        fst (create_chat_completion self user_message system_message kwargs w)
        = Return (PyDict [("error", PyStr (str e));
                          ("type", PyStr (exn_type_name e))]))
  /\ (forall completion e,
        completions_create (client self)
          (gateway_params self user_message system_message kwargs)
        = Return completion ->
        extract_content completion = Raise e ->
        fst (create_chat_completion self user_message system_message kwargs w)
        = Return (PyDict [("error", PyStr (str e));
                          ("type", PyStr (exn_type_name e))]))
  /\ (forall completion payload,
        completions_create (client self)
          (gateway_params self user_message system_message kwargs)
        = Return completion ->
        extract_content completion = Return payload ->
        fst (create_chat_completion self user_message system_message kwargs w)
        = Return payload).
Proof.
  assert (fst (create_chat_completion self user_message system_message kwargs w)
          = match completions_create (client self)
                    (gateway_params self user_message system_message kwargs)
                  ≫= extract_content with
            | Return payload => Return payload
            | Raise e => Return (error_record e)
            end) as Hrun.
  { unfold create_chat_completion, try_except, chat_completions_create, kwargs_get.
    unfold extract_content, mbind, M_bind, result_bind, lift, mret, M_ret.
    change (PyDict _)
      with (gateway_params self user_message system_message kwargs) at 1.
    destruct (completions_create (client self) _) as [completion|e]; [|done].
    destruct (getattr completion "choices") as [choices|e]; [|done].
    destruct (getattr choices "message") as [message|e]; [|done].
    destruct (getattr message "content") as [content|e]; [|done].
    destruct (call_to_json content) as [text|e]; [|done].
    by destruct (json_loads text). }
  rewrite Hrun. clear Hrun. unfold mbind, result_bind.
  split; [|split; [|split]].
  - destruct (completions_create (client self) _) as [completion|e];
      [|eexists; split; [done|right; by eexists]].
    unfold extract_content, mbind, result_bind.
    destruct (getattr completion "choices") as [choices|e];
      [|eexists; split; [done|right; by eexists]].
    destruct (getattr choices "message") as [message|e];
      [|eexists; split; [done|right; by eexists]].
    destruct (getattr message "content") as [content|e];
      [|eexists; split; [done|right; by eexists]].
    destruct (call_to_json content) as [text|e];
      [|eexists; split; [done|right; by eexists]].
    destruct (json_loads text) as [v|e] eqn:Hloads;
      [|eexists; split; [done|right; by eexists]].
    exists v. split; [done|]. left. by exists text.
  - by intros e ->.
  - by intros completion e -> ->.
  - by intros completion payload -> ->.
Qed.

Lemma gateway_outcomes_on_three_services :
  fst (create_chat_completion (test_api failing_upstream) "Hello" None ∅
         empty_world)
  = Return (PyDict [("error", PyStr "quota exceeded");
                    ("type", PyStr "RateLimitError")])
  /\ fst (create_chat_completion (test_api healthy_upstream) "Hello" None ∅
            empty_world)
     = Return (PyDict [("error", PyStr "'list' object has no attribute 'message'");
                       ("type", PyStr "AttributeError")])
  /\ fst (create_chat_completion (test_api duck_upstream) "Hello" None ∅
            empty_world)
     = Return (PyDict []).
Proof.
  split; [|split].
  - apply (proj1 (proj2 (create_chat_completion_never_raises
                           (test_api failing_upstream) "Hello" None ∅ empty_world))
             (Exc "RateLimitError" "quota exceeded")).
    reflexivity.
  - apply (proj1 (proj2 (proj2 (create_chat_completion_never_raises
                                  (test_api healthy_upstream) "Hello" None ∅
                                  empty_world)))
             (ChatCompletion [Choice (PyStr "Hi there!")])
             (Exc "AttributeError" "'list' object has no attribute 'message'"));
      reflexivity.
  - apply (proj2 (proj2 (proj2 (create_chat_completion_never_raises
                                  (test_api duck_upstream) "Hello" None ∅
                                  empty_world)))
             (PyObj "Completion"
                [("choices",
                  PyObj "Choices"
                    [("message",
                      PyObj "Message" [("content", PyObj "Content" [])])])]));
      reflexivity.
Defined.

(** ** What the service receives *)

Lemma upstream_messages_after_call `{Libs} (self : ChatAPI)
    (user_message : string) (system_message : option string)
    (kwargs : gmap string pyval) (w : world) :
  upstream_messages
    (snd (create_chat_completion self user_message system_message kwargs w))
  = Some (_build_messages user_message system_message).
Proof.
  rewrite create_chat_completion_world. unfold upstream_messages. simpl.
  by rewrite last_snoc.
Qed.

Lemma endpoint_kwargs_params `{Libs} (chat_api : ChatAPI)
    (chat_request : ChatRequest) :
  gateway_params chat_api (user_message chat_request)
    (system_message chat_request) (endpoint_kwargs chat_request)
  = request_params (deployment chat_api)
      (_build_messages (user_message chat_request) (system_message chat_request))
      (max_tokens chat_request) (temperature chat_request) (top_p chat_request)
      (frequency_penalty chat_request) (presence_penalty chat_request)
      (stop chat_request) (stream chat_request).
Proof. reflexivity. Qed.

(** C4.  In every call of the gateway the first message handed to the
    service carries the system message verbatim when one is given and is
    not empty, and the fixed persona text otherwise. *)
Theorem system_text_verbatim_or_default `{Libs} (self : ChatAPI)
    (user_message : string) (system_message : option string)
    (kwargs : gmap string pyval) (w : world) :
  exists first second,
    upstream_messages
      (snd (create_chat_completion self user_message system_message kwargs w))
    = Some (PyList [first; second])
    /\ (forall text, system_message = Some text -> text <> "" ->
                     message_text first = Some (PyStr text))
    /\ (system_message = None \/ system_message = Some "" ->
        message_text first
        = Some (PyStr "You are an AI assistant that helps people find information.")).
Proof.
  rewrite upstream_messages_after_call. unfold _build_messages.
  destruct system_message as [text|]; simpl.
  - destruct (String.eqb_spec text "") as [->|Hne]; simpl.
    + eexists _, _. split; [reflexivity|]. split; [|done].
      intros text [= <-] Hne. by destruct Hne.
    + eexists _, _. split; [reflexivity|]. split.
      * by intros text' [= <-] _.
      * intros [|[= ->]]; [done|by destruct Hne].
  - eexists _, _. split; [reflexivity|]. split; done.
Qed.

Lemma be_terse_is_sent_verbatim :
  exists first second,
    upstream_messages
      (snd (create_chat_completion (test_api healthy_upstream)
              "Hello" (Some "Be terse.") ∅ empty_world))
    = Some (PyList [first; second])
    /\ message_text first = Some (PyStr "Be terse.").
Proof.
  destruct (system_text_verbatim_or_default (test_api healthy_upstream)
              "Hello" (Some "Be terse.") ∅ empty_world)
    as (first & second & Hsent & Hgiven & _).
  exists first, second. split; [exact Hsent|].
  apply Hgiven; [reflexivity|discriminate].
Defined.

(** C5.  In every call of the gateway the message list handed to the
    service has exactly two entries, the first of role system and the
    second of role user. *)
Theorem two_messages_system_then_user `{Libs} (self : ChatAPI)
    (user_message : string) (system_message : option string)
    (kwargs : gmap string pyval) (w : world) :
  exists first second,
    _build_messages user_message system_message = PyList [first; second]
    /\ upstream_messages
         (snd (create_chat_completion self user_message system_message kwargs w))
       = Some (PyList [first; second])
    /\ message_role first = Some (PyStr "system")
    /\ message_role second = Some (PyStr "user").
Proof.
  rewrite upstream_messages_after_call. unfold _build_messages.
  destruct system_message as [text|]; simpl;
    [destruct (String.eqb text ""); simpl|];
    eexists _, _; repeat split; reflexivity.
Qed.

(** C10.  In every call of the gateway the second message handed to the
    service carries the user text unchanged, whatever that text is (the
    empty string and blank strings included). *)
Theorem user_text_verbatim `{Libs} (self : ChatAPI)
    (user_message : string) (system_message : option string)
    (kwargs : gmap string pyval) (w : world) :
  exists first second,
    upstream_messages
      (snd (create_chat_completion self user_message system_message kwargs w))
    = Some (PyList [first; second])
    /\ message_role second = Some (PyStr "user")
    /\ message_text second = Some (PyStr user_message).
Proof.
  rewrite upstream_messages_after_call. unfold _build_messages.
  destruct system_message as [text|]; simpl;
    [destruct (String.eqb text ""); simpl|];
    eexists _, _; repeat split; reflexivity.
Qed.

(** The message list always is a system message followed by the user
    message. *)
Lemma _build_messages_roles (user_message : string)
    (system_message : option string) :
  exists first,
    _build_messages user_message system_message
    = PyList [first;
              PyDict [("role", PyStr "user");
                      ("content", PyList [PyDict [("type", PyStr "text");
                                                  ("text", PyStr user_message)]])]]
    /\ message_role first = Some (PyStr "system").
Proof.
  unfold _build_messages.
  destruct system_message as [text|]; simpl;
    [destruct (String.eqb text ""); simpl|]; eexists; split; reflexivity.
Qed.

(** C9.  In every call of the gateway the completion call is handed one
    parameter record: the configured model, the assembled message list,
    which has exactly two entries (system, then user), and each generation
    knob exactly as the caller gave it, or its default (800, 0.7, 0.95, 0,
    0, None, False) when the caller gave none.  Through the boundary the
    knobs of the validated request arrive unchanged. *)
Theorem knobs_pass_through `{Libs} (self : ChatAPI)
    (user_text : string) (system_text : option string)
    (kwargs : gmap string pyval) (chat_request : ChatRequest) (w : world) :
  sent (snd (create_chat_completion self user_text system_text kwargs w))
  = sent w ++
    [PyDict [("model", PyStr (deployment self));
             ("messages", _build_messages user_text system_text);
             ("max_tokens", default (PyInt 800) (kwargs !! "max_tokens"));
             ("temperature", default (PyFloat 0.7) (kwargs !! "temperature"));
             ("top_p", default (PyFloat 0.95) (kwargs !! "top_p"));
             ("frequency_penalty",
              default (PyInt 0) (kwargs !! "frequency_penalty"));
             ("presence_penalty",
              default (PyInt 0) (kwargs !! "presence_penalty"));
             ("stop", default PyNone (kwargs !! "stop"));
             ("stream", default (PyBool false) (kwargs !! "stream"))]]
  /\ sent (snd (create_chat_completion self user_text system_text ∅ w))
     = sent w ++
       [PyDict [("model", PyStr (deployment self));
                ("messages", _build_messages user_text system_text);
                ("max_tokens", PyInt 800);
                ("temperature", PyFloat 0.7);
                ("top_p", PyFloat 0.95);
                ("frequency_penalty", PyInt 0);
                ("presence_penalty", PyInt 0);
                ("stop", PyNone);
                ("stream", PyBool false)]]
  /\ sent (snd (chat_endpoint self chat_request w))
     = sent w ++
       [PyDict [("model", PyStr (deployment self));
                ("messages", _build_messages (user_message chat_request)
                               (system_message chat_request));
                ("max_tokens", max_tokens chat_request);
                ("temperature", temperature chat_request);
                ("top_p", top_p chat_request);
                ("frequency_penalty", frequency_penalty chat_request);
                ("presence_penalty", presence_penalty chat_request);
                ("stop", stop chat_request);
                ("stream", stream chat_request)]]
  /\ (exists first second,
        _build_messages user_text system_text = PyList [first; second]
        /\ message_role first = Some (PyStr "system")
        /\ message_role second = Some (PyStr "user"))
  /\ (exists first second,
        _build_messages (user_message chat_request) (system_message chat_request)
        = PyList [first; second]
        /\ message_role first = Some (PyStr "system")
        /\ message_role second = Some (PyStr "user")).
Proof.
  split; [|split; [|split; [|split]]].
  - by rewrite create_chat_completion_world.
  - by rewrite create_chat_completion_world.
  - by rewrite chat_endpoint_sent, endpoint_kwargs_params.
  - destruct (_build_messages_roles user_text system_text) as (first & -> & Hrole).
    eexists _, _. split; [reflexivity|]. split; [exact Hrole|reflexivity].
  - destruct (_build_messages_roles (user_message chat_request)
                (system_message chat_request)) as (first & -> & Hrole).
    eexists _, _. split; [reflexivity|]. split; [exact Hrole|reflexivity].
Qed.

(** ** Schema validation at the boundary *)

Lemma _build_messages_user (user_message : string) (system_message : option string) :
  exists first,
    _build_messages user_message system_message
    = PyList [first;
              PyDict [("role", PyStr "user");
                      ("content", PyList [PyDict [("type", PyStr "text");
                                                  ("text", PyStr user_message)]])]].
Proof.
  unfold _build_messages.
  destruct system_message as [text|]; simpl;
    [destruct (String.eqb text ""); simpl|]; by eexists.
Qed.

(** The endpoint raises nothing but an [HTTPException] of status 500. *)
Lemma chat_endpoint_raises_500 `{Libs} (chat_api : ChatAPI)
    (chat_request : ChatRequest) (w : world) (e : exn) :
  fst (chat_endpoint chat_api chat_request w) = Raise e ->
  exists detail, e = HTTPException 500 detail.
Proof.
  unfold chat_endpoint, try_except.
  unfold mbind at 1. unfold M_bind at 1.
  destruct (create_chat_completion _ _ _ _ w) as [[response|e'] w'];
    [|simpl; intros [= <-]; by eexists].
  unfold mbind, M_bind, lift, raise, mret, M_ret, print_exc.
  destruct (py_in "error" response) as [[|]|e'];
    [simpl; intros [= <-]; by eexists| |simpl; intros [= <-]; by eexists].
  destruct (getattr response "completion") as [completion|e'];
    [|simpl; intros [= <-]; by eexists].
  destruct (getattr completion "choices") as [choices|e'];
    [|simpl; intros [= <-]; by eexists].
  destruct (truthy choices); [|done].
  destruct (getitem0 choices) as [choice|e'];
    [|simpl; intros [= <-]; by eexists].
  destruct (getattr choice "message") as [message|e'];
    [|simpl; intros [= <-]; by eexists].
  destruct (getattr message "content");
    [done|simpl; intros [= <-]; by eexists].
Qed.

Lemma post_chat_validated `{Libs} (chat_api : ChatAPI) (body : pyval)
    (chat_request : ChatRequest) (w : world) :
  validate_ChatRequest body = Some chat_request ->
  status_of (fst (post_chat chat_api body w)) <> 422%Z
  /\ sent (snd (post_chat chat_api body w))
     = sent w ++ [gateway_params chat_api (user_message chat_request)
                    (system_message chat_request) (endpoint_kwargs chat_request)].
Proof.
  intros Hvalid. unfold post_chat. rewrite Hvalid.
  pose proof (chat_endpoint_sent chat_api chat_request w) as Hsent.
  pose proof (chat_endpoint_raises_500 chat_api chat_request w) as Hraise.
  destruct (chat_endpoint chat_api chat_request w) as [[v|e] w']; [done|].
  destruct (Hraise e eq_refl) as [detail ->]. done.
Qed.

Lemma validated_user_message `{Libs} (kvs : list (string * pyval))
    (text : string) (chat_request : ChatRequest) :
  assoc "user_message" kvs = Some (PyStr text) ->
  validate_ChatRequest (PyDict kvs) = Some chat_request ->
  user_message chat_request = text.
Proof.
  intros Hfield Hvalid. unfold validate_ChatRequest in Hvalid.
  rewrite Hfield in Hvalid. simpl in Hvalid.
  repeat match type of Hvalid with
         | context [mbind _ ?o] => destruct o; simpl in Hvalid; [|done]
         end.
  by injection Hvalid as <-.
Qed.

(** With a string under [user_message], a body is accepted exactly when
    its other fields are. *)
Lemma string_user_message_accepted `{Libs} (kvs : list (string * pyval))
    (text : string) :
  assoc "user_message" kvs = Some (PyStr text) ->
  other_fields_valid kvs ->
  exists chat_request,
    validate_ChatRequest (PyDict kvs) = Some chat_request
    /\ user_message chat_request = text.
Proof.
  intros Hfield (Hsm & Hmt & Hte & Htp & Hfp & Hpp & Hst & Hsr).
  unfold validate_ChatRequest. rewrite Hfield. simpl.
  unfold system_message_field in Hsm.
  destruct Hsm as [sm ->], Hmt as [mt ->], Hte as [te ->], Htp as [tp ->],
    Hfp as [fp ->], Hpp as [pp ->], Hst as [st ->], Hsr as [sr ->].
  simpl. by eexists.
Qed.

Lemma accepted_fields_valid `{Libs} (kvs : list (string * pyval)) :
  is_Some (validate_ChatRequest (PyDict kvs)) -> other_fields_valid kvs.
Proof.
  intros [chat_request Hvalid]. unfold validate_ChatRequest in Hvalid.
  unfold other_fields_valid, system_message_field.
  destruct (assoc "user_message" kvs ≫= validate_str); simpl in Hvalid; [|done].
  repeat match type of Hvalid with
         | context [mbind _ ?o] => destruct o; simpl in Hvalid; [|done]
         end.
  repeat split; by eexists.
Qed.

(** C7, as the code has it.  The schema asks for a [user_message] that is
    there and is not [null], not for content: a body without the field, or
    with [null] under it, is answered 422 and nothing reaches the gateway.
    A body with a string under [user_message], the empty one included,
    passes validation exactly when its other fields are valid, and the
    gateway then hands that very text on; a body holding nothing but a
    string [user_message] always passes. *)
Theorem schema_requires_presence_only `{Libs} (chat_api : ChatAPI)
    (kvs : list (string * pyval)) (w : world) :
  (assoc "user_message" kvs = None \/ assoc "user_message" kvs = Some PyNone ->
     validate_ChatRequest (PyDict kvs) = None
     /\ status_of (fst (post_chat chat_api (PyDict kvs) w)) = 422%Z
     /\ snd (post_chat chat_api (PyDict kvs) w) = w)
  /\ (forall text,
        assoc "user_message" kvs = Some (PyStr text) ->
        (is_Some (validate_ChatRequest (PyDict kvs)) <-> other_fields_valid kvs)
        /\ (other_fields_valid kvs ->
            exists chat_request,
              validate_ChatRequest (PyDict kvs) = Some chat_request
              /\ user_message chat_request = text
              /\ status_of (fst (post_chat chat_api (PyDict kvs) w)) <> 422%Z
              /\ exists first second,
                   upstream_messages (snd (post_chat chat_api (PyDict kvs) w))
                   = Some (PyList [first; second])
                   /\ message_text second = Some (PyStr text)))
  /\ (forall text,
        validate_ChatRequest (PyDict [("user_message", PyStr text)])
        = Some (request_with text)).
Proof.
  split; [|split; [|reflexivity]].
  - intros Hfield.
    assert (validate_ChatRequest (PyDict kvs) = None) as Hrefused.
    { unfold validate_ChatRequest. by destruct Hfield as [->| ->]. }
    split; [exact Hrefused|]. unfold post_chat. by rewrite Hrefused.
  - intros text Hfield.
    assert (other_fields_valid kvs ->
            exists chat_request,
              validate_ChatRequest (PyDict kvs) = Some chat_request
              /\ user_message chat_request = text) as Haccepted
      by apply string_user_message_accepted, Hfield.
    split.
    + split; [apply accepted_fields_valid|].
      intros Hothers. destruct (Haccepted Hothers) as (chat_request & -> & _).
      by eexists.
    + intros Hothers.
      destruct (Haccepted Hothers) as (chat_request & Hvalid & Htext).
      destruct (post_chat_validated chat_api _ _ w Hvalid) as [Hstatus Hsent].
      exists chat_request.
      split; [exact Hvalid|]. split; [exact Htext|]. split; [exact Hstatus|].
      unfold upstream_messages. rewrite Hsent, last_snoc. simpl.
      destruct (_build_messages_user (user_message chat_request)
                  (system_message chat_request)) as [first ->].
      eexists _, _. split; [reflexivity|]. by rewrite Htext.
Qed.

Lemma empty_text_passes_the_schema :
  exists chat_request,
    @validate_ChatRequest (test_libs healthy_upstream)
      (PyDict [("user_message", PyStr "")]) = Some chat_request
    /\ user_message chat_request = ""
    /\ status_of (fst (post_chat (test_api healthy_upstream)
                         (PyDict [("user_message", PyStr "")]) empty_world))
       <> 422%Z
    /\ exists first second,
         upstream_messages (snd (post_chat (test_api healthy_upstream)
                                   (PyDict [("user_message", PyStr "")])
                                   empty_world))
         = Some (PyList [first; second])
         /\ message_text second = Some (PyStr "").
Proof.
  destruct (schema_requires_presence_only (test_api healthy_upstream)
              [("user_message", PyStr "")] empty_world) as (_ & Hstring & _).
  apply (Hstring "" eq_refl).
  repeat split; by eexists.
Defined.

(** C7, as the claim states it, fails: a request whose [user_message] is
    the empty string is not refused before the gateway. *)
Lemma empty_user_message_is_not_rejected :
  ~ (forall (L : Libs) (chat_api : ChatAPI) (body : pyval) (w : world),
       dict_get "user_message" body = Some (PyStr "") ->
       status_of (fst (post_chat chat_api body w)) = 422%Z
       /\ sent (snd (post_chat chat_api body w)) = sent w).
Proof.
  intros Hclaim.
  destruct (Hclaim (test_libs healthy_upstream) (test_api healthy_upstream)
              (PyDict [("user_message", PyStr "")]) empty_world eq_refl)
    as [Hstatus _].
  vm_compute in Hstatus. discriminate.
Qed.

(** ** Start-up *)

Lemma _get_required_env_cases (env : gmap string string) (var_name : string) :
  (missing env var_name
   /\ _get_required_env env var_name
      = Raise (Exc "ValueError"
                   ("Missing required environment variable: " +:+ var_name)))
  \/ (exists value, env !! var_name = Some value /\ value <> ""
                    /\ _get_required_env env var_name = Return value).
Proof.
  unfold _get_required_env, missing.
  destruct (env !! var_name) as [value|]; [|left; split; [by left|done]].
  simpl. destruct (String.eqb_spec value "") as [->|Hne]; simpl.
  - left. split; [by right|done].
  - right. by exists value.
Qed.

Lemma required_env_all (P : string -> Prop) :
  P "AZURE_OPENAI_ENDPOINT" -> P "AZURE_OPENAI_DEPLOYMENT_NAME" ->
  P "AZURE_TENANT_ID" -> P "AZURE_CLIENT_ID" -> P "AZURE_CLIENT_SECRET" ->
  forall var_name, var_name ∈ required_env -> P var_name.
Proof.
  intros H1 H2 H3 H4 H5 var_name Hin. unfold required_env in Hin.
  repeat (apply elem_of_cons in Hin as [->|Hin]; [assumption|]).
  by apply elem_of_nil in Hin.
Qed.

(** The loader reads the five settings in order and stops at the first one
    that is missing, with an error that ends with its name. *)
Lemma __init___cases `{Libs} (env : gmap string string) :
  (exists e var_name,
     __init__ env = Raise e /\ var_name ∈ required_env /\ missing env var_name
     /\ exists prefix, str e = prefix +:+ var_name)
  \/ (forall var_name, var_name ∈ required_env ->
        exists value, env !! var_name = Some value /\ value <> "").
Proof.
  unfold __init__, _initialize_client, try_result.
  destruct (_get_required_env_cases env "AZURE_OPENAI_ENDPOINT")
    as [[Hmiss ->]|(v1 & Hv1 & Hne1 & ->)].
  { left. eexists _, "AZURE_OPENAI_ENDPOINT".
    split; [reflexivity|]. split; [set_solver|]. split; [done|].
    by exists "Missing required environment variable: ". }
  destruct (_get_required_env_cases env "AZURE_OPENAI_DEPLOYMENT_NAME")
    as [[Hmiss ->]|(v2 & Hv2 & Hne2 & ->)].
  { left. eexists _, "AZURE_OPENAI_DEPLOYMENT_NAME".
    split; [reflexivity|]. split; [set_solver|]. split; [done|].
    by exists "Missing required environment variable: ". }
  destruct (_get_required_env_cases env "AZURE_TENANT_ID")
    as [[Hmiss ->]|(v3 & Hv3 & Hne3 & ->)].
  { left. eexists _, "AZURE_TENANT_ID".
    split; [reflexivity|]. split; [set_solver|]. split; [done|].
    by exists "Failed to initialize Azure OpenAI client: Missing required environment variable: ". }
  destruct (_get_required_env_cases env "AZURE_CLIENT_ID")
    as [[Hmiss ->]|(v4 & Hv4 & Hne4 & ->)].
  { left. eexists _, "AZURE_CLIENT_ID".
    split; [reflexivity|]. split; [set_solver|]. split; [done|].
    by exists "Failed to initialize Azure OpenAI client: Missing required environment variable: ". }
  destruct (_get_required_env_cases env "AZURE_CLIENT_SECRET")
    as [[Hmiss ->]|(v5 & Hv5 & Hne5 & ->)].
  { left. eexists _, "AZURE_CLIENT_SECRET".
    split; [reflexivity|]. split; [set_solver|]. split; [done|].
    by exists "Failed to initialize Azure OpenAI client: Missing required environment variable: ". }
  right. apply required_env_all; eauto.
Qed.

(** C8.  If any of the five required settings is absent or empty, the
    construction of [ChatAPI] raises an error whose message ends with the
    name of a missing setting (the first one in reading order), and the
    process aborts instead of serving; if the construction succeeds, all
    five settings are present and not empty. *)
Theorem missing_setting_aborts_startup `{Libs} (env : gmap string string) :
  ((exists var_name, var_name ∈ required_env /\ missing env var_name) ->
   exists e var_name,
     __init__ env = Raise e /\ main env = Aborted e
     /\ var_name ∈ required_env /\ missing env var_name
     /\ exists prefix, str e = prefix +:+ var_name)
  /\ (forall chat_api, __init__ env = Return chat_api ->
        forall var_name, var_name ∈ required_env ->
          exists value, env !! var_name = Some value /\ value <> "").
Proof.
  destruct (__init___cases env)
    as [(e & var_name & Hinit & Hin & Hmiss & Hname)|Hall].
  - split.
    + intros _. exists e, var_name. unfold main. rewrite Hinit. done.
    + intros chat_api Hok. congruence.
  - split; [|intros _ _; exact Hall].
    intros (var_name & Hin & [Hnone|Hempty]);
      destruct (Hall var_name Hin) as (value & Hvalue & Hne); congruence.
Qed.

Lemma no_client_id_aborts_startup :
  exists e var_name,
    @__init__ (test_libs healthy_upstream) (delete "AZURE_CLIENT_ID" test_env)
    = Raise e
    /\ @main (test_libs healthy_upstream) (delete "AZURE_CLIENT_ID" test_env)
       = Aborted e
    /\ var_name ∈ required_env
    /\ missing (delete "AZURE_CLIENT_ID" test_env) var_name
    /\ exists prefix, @str (test_libs healthy_upstream) e = prefix +:+ var_name.
Proof.
  apply (proj1 (@missing_setting_aborts_startup (test_libs healthy_upstream)
                  (delete "AZURE_CLIENT_ID" test_env))).
  exists "AZURE_CLIENT_ID". split; [set_solver|]. left. reflexivity.
Defined.

(** * Further properties of the code *)

(** ** What the boundary logs and answers *)

(** The gateway returns an error record or what [json.loads] produced,
    and leaves stderr alone. *)
Lemma create_chat_completion_outcome `{Libs} (self : ChatAPI)
    (user_message : string) (system_message : option string)
    (kwargs : gmap string pyval) (w : world) :
  exists v,
    create_chat_completion self user_message system_message kwargs w
    = (Return v,
       {| sent := sent w ++ [gateway_params self user_message system_message kwargs];
          stderr := stderr w |})
    /\ ((exists e, v = error_record e)
        \/ (exists text, json_loads text = Return v)).
Proof.
  unfold create_chat_completion, try_except, chat_completions_create, kwargs_get.
  unfold mbind, M_bind, lift, mret, M_ret.
  change (PyDict _) with (gateway_params self user_message system_message kwargs)
    at 1.
  destruct (completions_create (client self) _) as [completion|e];
    [|eexists; split; [done|left; by eexists]].
  destruct (getattr completion "choices") as [choices|e];
    [|eexists; split; [done|left; by eexists]].
  destruct (getattr choices "message") as [message|e];
    [|eexists; split; [done|left; by eexists]].
  destruct (getattr message "content") as [content|e];
    [|eexists; split; [done|left; by eexists]].
  destruct (call_to_json content) as [text|e];
    [|eexists; split; [done|left; by eexists]].
  destruct (json_loads text) as [v|e] eqn:Hloads;
    [|eexists; split; [done|left; by eexists]].
  exists v. split; [done|]. right. by exists text.
Qed.

#[local] Ltac handler_exit :=
  eexists _, _; split; [reflexivity|]; right; eexists; split; reflexivity.

#[local] Ltac normal_exit :=
  eexists _, _; split; [reflexivity|]; left; eexists; split; reflexivity.

(** Every exit of the endpoint through its handler logs the exception it
    caught and reports the [str] of that same exception; a normal exit logs
    nothing. *)
Lemma chat_endpoint_outcome `{Libs} (chat_api : ChatAPI)
    (chat_request : ChatRequest) (w : world) :
  exists r w',
    chat_endpoint chat_api chat_request w = (r, w')
    /\ ((exists v, r = Return v /\ stderr w' = stderr w)
        \/ (exists e, r = Raise (HTTPException 500 (PyStr (str e)))
                      /\ stderr w' = stderr w ++ [e])).
Proof.
  unfold chat_endpoint, try_except.
  change (list_to_map _) with (endpoint_kwargs chat_request).
  unfold mbind at 1. unfold M_bind at 1.
  destruct (create_chat_completion_outcome chat_api (user_message chat_request)
              (system_message chat_request) (endpoint_kwargs chat_request) w)
    as (response & -> & _).
  unfold mbind, M_bind, lift, raise, mret, M_ret, print_exc.
  destruct (py_in "error" response) as [[|]|e];
    [handler_exit| |handler_exit].
  destruct (getattr response "completion") as [completion|e];
    [|handler_exit].
  destruct (getattr completion "choices") as [choices|e];
    [|handler_exit].
  destruct (truthy choices); [|normal_exit].
  destruct (getitem0 choices) as [choice|e]; [|handler_exit].
  destruct (getattr choice "message") as [message|e]; [|handler_exit].
  destruct (getattr message "content"); [normal_exit|handler_exit].
Qed.

(** With a [json.loads] that returns JSON values only, the endpoint never
    returns: what the gateway hands back either holds ["error"], or is not
    a container, or has no attribute [completion]. *)
Lemma chat_endpoint_never_returns `{Libs} (chat_api : ChatAPI)
    (chat_request : ChatRequest) (w : world) :
  (forall text cls attrs, json_loads text <> Return (PyObj cls attrs)) ->
  forall v, fst (chat_endpoint chat_api chat_request w) <> Return v.
Proof.
  intros Hjson v.
  unfold chat_endpoint, try_except.
  change (list_to_map _) with (endpoint_kwargs chat_request).
  unfold mbind at 1. unfold M_bind at 1.
  destruct (create_chat_completion_outcome chat_api (user_message chat_request)
              (system_message chat_request) (endpoint_kwargs chat_request) w)
    as (response & -> & Hresponse).
  unfold mbind, M_bind, lift, raise, mret, M_ret, print_exc.
  destruct Hresponse as [[e ->]|[text Hloads]]; [done|].
  destruct (py_in "error" response) as [[|]|e]; [done| |done].
  destruct response; try done.
  by destruct (Hjson text cls attrs).
Qed.

(** X1.  With a [json.loads] that returns JSON values only, every request
    that passes validation is answered 500, whatever the service does: the
    body is [{"detail": s}] where [s] is the [str] of the exception the
    endpoint logged.  No request is ever answered 200. *)
Theorem post_chat_always_500 `{Libs} (chat_api : ChatAPI) (body : pyval)
    (chat_request : ChatRequest) (w : world) :
  (forall text cls attrs, json_loads text <> Return (PyObj cls attrs)) ->
  validate_ChatRequest body = Some chat_request ->
  exists e,
    fst (post_chat chat_api body w)
    = Response 500 (PyDict [("detail", PyStr (str e))])
    /\ stderr (snd (post_chat chat_api body w)) = stderr w ++ [e].
Proof.
  intros Hjson Hvalid. unfold post_chat. rewrite Hvalid.
  pose proof (chat_endpoint_never_returns chat_api chat_request w Hjson) as Hnever.
  destruct (chat_endpoint_outcome chat_api chat_request w)
    as (r & w' & Hrun & [(v & -> & _)|(e & -> & Hlog)]);
    rewrite Hrun in Hnever |- *.
  - by destruct (Hnever v).
  - exists e. done.
Qed.

Lemma hello_is_never_answered_200 :
  exists e,
    fst (post_chat (test_api healthy_upstream) hello_body empty_world)
    = Response 500 (PyDict [("detail", PyStr (@str (test_libs healthy_upstream) e))])
    /\ stderr (snd (post_chat (test_api healthy_upstream) hello_body empty_world))
       = stderr empty_world ++ [e].
Proof.
  apply (post_chat_always_500 (test_api healthy_upstream) hello_body
           hello_request empty_world); [discriminate|reflexivity].
Defined.

(** X2.  For every behaviour of the libraries, a validated request is
    either answered 200 with nothing logged, or answered 500 with exactly
    one exception logged and the [str] of that exception as the detail: the
    client is told what was logged, and the traceback is logged once. *)
Theorem post_chat_reports_what_it_logs `{Libs} (chat_api : ChatAPI)
    (body : pyval) (chat_request : ChatRequest) (w : world) :
  validate_ChatRequest body = Some chat_request ->
  (exists v, fst (post_chat chat_api body w) = Response 200 v
             /\ stderr (snd (post_chat chat_api body w)) = stderr w)
  \/ (exists e,
        fst (post_chat chat_api body w)
        = Response 500 (PyDict [("detail", PyStr (str e))])
        /\ stderr (snd (post_chat chat_api body w)) = stderr w ++ [e]).
Proof.
  intros Hvalid. unfold post_chat. rewrite Hvalid.
  destruct (chat_endpoint_outcome chat_api chat_request w)
    as (r & w' & -> & [(v & -> & Hlog)|(e & -> & Hlog)]);
    [left|right]; by eexists.
Qed.

Lemma rate_limit_is_logged_once :
  (exists v,
     fst (post_chat (test_api failing_upstream) hello_body empty_world)
     = Response 200 v
     /\ stderr (snd (post_chat (test_api failing_upstream) hello_body empty_world))
        = stderr empty_world)
  \/ (exists e,
        fst (post_chat (test_api failing_upstream) hello_body empty_world)
        = Response 500
            (PyDict [("detail", PyStr (@str (test_libs failing_upstream) e))])
        /\ stderr (snd (post_chat (test_api failing_upstream) hello_body empty_world))
           = stderr empty_world ++ [e]).
Proof.
  apply (post_chat_reports_what_it_logs (test_api failing_upstream) hello_body
           hello_request empty_world). reflexivity.
Defined.

(** X3.  [POST /chat] calls the SDK's completion method exactly once for
    a body that passes validation, on every path through the endpoint (the
    module has no retry loop of its own around the call), and not at all
    for a body that does not: a refused body is answered 422 and leaves the
    world as it was. *)
Theorem post_chat_invokes_completion_once `{Libs} (chat_api : ChatAPI)
    (body : pyval) (w : world) :
  match validate_ChatRequest body with
  | Some chat_request =>
      sent (snd (post_chat chat_api body w))
      = sent w ++ [gateway_params chat_api (user_message chat_request)
                     (system_message chat_request) (endpoint_kwargs chat_request)]
  | None =>
      snd (post_chat chat_api body w) = w
      /\ status_of (fst (post_chat chat_api body w)) = 422%Z
  end.
Proof.
  destruct (validate_ChatRequest body) as [chat_request|] eqn:Hvalid.
  - by destruct (post_chat_validated chat_api body chat_request w Hvalid).
  - unfold post_chat. by rewrite Hvalid.
Qed.

(** ** The loader *)

Lemma _get_required_env_set (env : gmap string string)
    (var_name value : string) :
  env !! var_name = Some value -> value <> "" ->
  _get_required_env env var_name = Return value.
Proof.
  intros Hvalue Hne. unfold _get_required_env. rewrite Hvalue. simpl.
  by destruct (String.eqb_spec value "").
Qed.

(** X4.  [_get_required_env] returns a value exactly when the variable is
    set to a non-empty string, and then returns that string as it is (no
    trimming: a blank value counts as set). *)
Theorem _get_required_env_returns_iff (env : gmap string string)
    (var_name value : string) :
  _get_required_env env var_name = Return value
  <-> env !! var_name = Some value /\ value <> "".
Proof.
  destruct (_get_required_env_cases env var_name)
    as [[[Hnone|Hempty] ->]|(value' & Hvalue & Hne & ->)]; split.
  - done.
  - intros [? _]; congruence.
  - done.
  - intros [? ?]; congruence.
  - intros [= ->]. done.
  - intros [? _]. congruence.
Qed.

(** Failures inside [_initialize_client] all leave it as a plain
    [Exception] whose message is the fixed prefix followed by the [str] of
    the cause. *)
Lemma _initialize_client_raises `{Libs} (env : gmap string string)
    (self_endpoint self_api_version : string) (e : exn) :
  _initialize_client env self_endpoint self_api_version = Raise e ->
  exists cause,
    e = Exc "Exception"
            ("Failed to initialize Azure OpenAI client: " +:+ str cause).
Proof.
  unfold _initialize_client, try_result.
  destruct (mbind _ _) as [c|cause]; [done|].
  intros [= <-]. by exists cause.
Qed.

(** X5.  Whatever goes wrong while a [ChatAPI] is constructed, the error
    is one of three: a [ValueError] naming the endpoint setting, a
    [ValueError] naming the deployment setting, or a plain [Exception]
    "Failed to initialize Azure OpenAI client: ..." that wraps the [str] of
    its cause.  No exception of the identity or openai libraries leaves the
    constructor under its own kind. *)
Theorem __init___error_kinds `{Libs} (env : gmap string string) (e : exn) :
  __init__ env = Raise e ->
  e = Exc "ValueError"
          "Missing required environment variable: AZURE_OPENAI_ENDPOINT"
  \/ e = Exc "ValueError"
             "Missing required environment variable: AZURE_OPENAI_DEPLOYMENT_NAME"
  \/ exists cause,
       e = Exc "Exception"
               ("Failed to initialize Azure OpenAI client: " +:+ str cause).
Proof.
  unfold __init__.
  destruct (_get_required_env_cases env "AZURE_OPENAI_ENDPOINT")
    as [[_ ->]|(v1 & _ & _ & ->)]; [intros [= <-]; by left|].
  destruct (_get_required_env_cases env "AZURE_OPENAI_DEPLOYMENT_NAME")
    as [[_ ->]|(v2 & _ & _ & ->)]; [intros [= <-]; right; by left|].
  simpl.
  destruct (_initialize_client env v1 _) as [c|e'] eqn:Hclient; [done|].
  intros [= <-]. right. right. by eapply _initialize_client_raises.
Qed.

Lemma no_tenant_is_a_plain_exception :
  exists cause,
    @__init__ (test_libs healthy_upstream) (delete "AZURE_TENANT_ID" test_env)
    = Raise (Exc "Exception"
                 ("Failed to initialize Azure OpenAI client: "
                  +:+ @str (test_libs healthy_upstream) cause)).
Proof.
  assert (@__init__ (test_libs healthy_upstream)
            (delete "AZURE_TENANT_ID" test_env)
          = Raise (Exc "Exception"
                       "Failed to initialize Azure OpenAI client: Missing required environment variable: AZURE_TENANT_ID"))
    as Hinit by reflexivity.
  destruct (__init___error_kinds _ _ Hinit)
    as [Hkind|[Hkind|[cause Hkind]]]; [discriminate Hkind..|].
  exists cause. rewrite <- Hkind. exact Hinit.
Defined.

(** X6.  When the five required settings are set and the three library
    calls succeed, the constructor returns the [ChatAPI] made of them: the
    endpoint and the deployment as set, the API version as set or
    "2025-01-01-preview" when unset, and the client built from the endpoint,
    the API version and a token provider for the credential of (tenant,
    client id, secret) and the cognitive-services scope; the process then
    serves. *)
Theorem __init___succeeds `{Libs} (env : gmap string string)
    (endpoint_url deployment_name tenant_id client_id client_secret : string)
    (credential : Credential) (token_provider : TokenProvider) (c : Client) :
  env !! "AZURE_OPENAI_ENDPOINT" = Some endpoint_url -> endpoint_url <> "" ->
  env !! "AZURE_OPENAI_DEPLOYMENT_NAME" = Some deployment_name ->
  deployment_name <> "" ->
  env !! "AZURE_TENANT_ID" = Some tenant_id -> tenant_id <> "" ->
  env !! "AZURE_CLIENT_ID" = Some client_id -> client_id <> "" ->
  env !! "AZURE_CLIENT_SECRET" = Some client_secret -> client_secret <> "" ->
  ClientSecretCredential tenant_id client_id client_secret = Return credential ->
  get_bearer_token_provider credential cognitive_services_scope
  = Return token_provider ->
  AzureOpenAI endpoint_url token_provider
    (default "2025-01-01-preview" (env !! "AZURE_OPENAI_API_VERSION"))
  = Return c ->
  let chat_api :=
    {| endpoint := endpoint_url; deployment := deployment_name;
       api_version := default "2025-01-01-preview"
                              (env !! "AZURE_OPENAI_API_VERSION");
       client := c |} in
  __init__ env = Return chat_api /\ main env = Serving chat_api.
Proof.
  intros H1 N1 H2 N2 H3 N3 H4 N4 H5 N5 Hcred Htoken Hclient chat_api.
  assert (__init__ env = Return chat_api) as Hinit.
  { unfold __init__, _initialize_client, try_result.
    rewrite (_get_required_env_set env _ _ H1 N1).
    rewrite (_get_required_env_set env _ _ H2 N2).
    simpl.
    rewrite (_get_required_env_set env _ _ H3 N3).
    rewrite (_get_required_env_set env _ _ H4 N4).
    rewrite (_get_required_env_set env _ _ H5 N5).
    simpl. rewrite Hcred. simpl.
    unfold cognitive_services_scope in Htoken. rewrite Htoken. simpl.
    by rewrite Hclient. }
  split; [exact Hinit|]. unfold main. by rewrite Hinit.
Qed.

Lemma test_env_serves :
  let chat_api :=
    @Build_ChatAPI (test_libs healthy_upstream)
      "https://example.openai.azure.com" "gpt-4o"
      (default "2025-01-01-preview" (test_env !! "AZURE_OPENAI_API_VERSION"))
      "https://example.openai.azure.com" in
  @__init__ (test_libs healthy_upstream) test_env = Return chat_api
  /\ @main (test_libs healthy_upstream) test_env = Serving chat_api.
Proof.
  apply (@__init___succeeds (test_libs healthy_upstream) test_env
           "https://example.openai.azure.com" "gpt-4o" "tenant" "client" "secret"
           ("tenant", "client", "secret") cognitive_services_scope
           "https://example.openai.azure.com");
    first [reflexivity|discriminate].
Defined.

(** X7.  When the five required settings are set and one of the three
    library calls (credential, token provider, client) raises, the
    constructor raises a plain [Exception] whose message is "Failed to
    initialize Azure OpenAI client: " followed by the [str] of that
    exception, and the process aborts. *)
Theorem library_failure_is_wrapped `{Libs} (env : gmap string string)
    (endpoint_url deployment_name tenant_id client_id client_secret : string)
    (cause : exn) :
  env !! "AZURE_OPENAI_ENDPOINT" = Some endpoint_url -> endpoint_url <> "" ->
  env !! "AZURE_OPENAI_DEPLOYMENT_NAME" = Some deployment_name ->
  deployment_name <> "" ->
  env !! "AZURE_TENANT_ID" = Some tenant_id -> tenant_id <> "" ->
  env !! "AZURE_CLIENT_ID" = Some client_id -> client_id <> "" ->
  env !! "AZURE_CLIENT_SECRET" = Some client_secret -> client_secret <> "" ->
  (ClientSecretCredential tenant_id client_id client_secret = Raise cause
   \/ exists credential,
        ClientSecretCredential tenant_id client_id client_secret
        = Return credential
        /\ (get_bearer_token_provider credential cognitive_services_scope
            = Raise cause
            \/ exists token_provider,
                 get_bearer_token_provider credential cognitive_services_scope
                 = Return token_provider
                 /\ AzureOpenAI endpoint_url token_provider
                      (default "2025-01-01-preview"
                               (env !! "AZURE_OPENAI_API_VERSION"))
                    = Raise cause)) ->
  let e := Exc "Exception"
               ("Failed to initialize Azure OpenAI client: " +:+ str cause) in
  __init__ env = Raise e /\ main env = Aborted e.
Proof.
  intros H1 N1 H2 N2 H3 N3 H4 N4 H5 N5 Hfails e.
  assert (__init__ env = Raise e) as Hinit.
  { unfold __init__, _initialize_client, try_result.
    rewrite (_get_required_env_set env _ _ H1 N1).
    rewrite (_get_required_env_set env _ _ H2 N2).
    simpl.
    rewrite (_get_required_env_set env _ _ H3 N3).
    rewrite (_get_required_env_set env _ _ H4 N4).
    rewrite (_get_required_env_set env _ _ H5 N5).
    simpl. unfold cognitive_services_scope in Hfails.
    destruct Hfails as [->|(credential & -> & [Htoken|(tp & Htoken & Hclient)])];
      simpl; [done| |]; rewrite Htoken; simpl; [done|].
    by rewrite Hclient. }
  split; [exact Hinit|]. unfold main. by rewrite Hinit.
Qed.

Lemma refused_credentials_abort_startup :
  let e := Exc "Exception"
               "Failed to initialize Azure OpenAI client: invalid tenant" in
  @__init__ refusing_libs test_env = Raise e
  /\ @main refusing_libs test_env = Aborted e.
Proof.
  apply (@library_failure_is_wrapped refusing_libs test_env
           "https://example.openai.azure.com" "gpt-4o" "tenant" "client" "secret"
           (Exc "ClientAuthenticationError" "invalid tenant"));
    first [reflexivity|discriminate|left; reflexivity].
Defined.

(** ** The schema and the knobs *)

Lemma assoc_skip {A : Type} (name k : string) (v : A)
    (l1 l2 : list (string * A)) :
  k <> name -> assoc name (l1 ++ (k, v) :: l2) = assoc name (l1 ++ l2).
Proof.
  intros Hne. induction l1 as [|[k' v'] l1 IH]; simpl.
  - by destruct (String.eqb_spec k name).
  - by rewrite IH.
Qed.

(** X8.  A key the schema does not declare changes nothing: the body is
    validated as if the key were not there, and a body that passes is
    answered as if the key were not there.  Unknown fields are dropped
    without an error. *)
Theorem unknown_body_keys_are_ignored `{Libs} (chat_api : ChatAPI)
    (k : string) (v : pyval) (l1 l2 : list (string * pyval)) (w : world) :
  k ∉ schema_fields ->
  validate_ChatRequest (PyDict (l1 ++ (k, v) :: l2))
  = validate_ChatRequest (PyDict (l1 ++ l2))
  /\ (is_Some (validate_ChatRequest (PyDict (l1 ++ l2))) ->
      post_chat chat_api (PyDict (l1 ++ (k, v) :: l2)) w
      = post_chat chat_api (PyDict (l1 ++ l2)) w).
Proof.
  intros Hk.
  assert (forall name, name ∈ schema_fields ->
            assoc name (l1 ++ (k, v) :: l2) = assoc name (l1 ++ l2)) as Hskip.
  { intros name Hname. apply assoc_skip. by intros ->. }
  assert (validate_ChatRequest (PyDict (l1 ++ (k, v) :: l2))
          = validate_ChatRequest (PyDict (l1 ++ l2))) as Hsame.
  { unfold validate_ChatRequest, optional_field.
    rewrite !Hskip by (unfold schema_fields; set_solver). reflexivity. }
  split; [exact Hsame|].
  intros [chat_request Hvalid]. unfold post_chat.
  by rewrite Hsame, Hvalid.
Qed.

Lemma an_extra_field_changes_nothing :
  @validate_ChatRequest (test_libs healthy_upstream)
    (PyDict ([("user_message", PyStr "Hello")] ++ [("n", PyInt 3)]))
  = @validate_ChatRequest (test_libs healthy_upstream)
      (PyDict ([("user_message", PyStr "Hello")] ++ []))
  /\ (is_Some (@validate_ChatRequest (test_libs healthy_upstream)
                 (PyDict ([("user_message", PyStr "Hello")] ++ []))) ->
      post_chat (test_api healthy_upstream)
        (PyDict ([("user_message", PyStr "Hello")] ++ [("n", PyInt 3)]))
        empty_world
      = post_chat (test_api healthy_upstream)
          (PyDict ([("user_message", PyStr "Hello")] ++ [])) empty_world).
Proof.
  apply (unknown_body_keys_are_ignored (test_api healthy_upstream)
           "n" (PyInt 3) [("user_message", PyStr "Hello")] [] empty_world).
  unfold schema_fields. intros Hin.
  repeat (apply elem_of_cons in Hin as [Hin|Hin]; [discriminate Hin|]).
  by apply elem_of_nil in Hin.
Defined.

(** What validation leaves in each knob of a request it accepts *)
Lemma validated_knobs `{Libs} (kvs : list (string * pyval))
    (chat_request : ChatRequest) :
  validate_ChatRequest (PyDict kvs) = Some chat_request ->
  optional_field validate_int (PyInt 800) kvs "max_tokens"
  = Some (max_tokens chat_request)
  /\ optional_field validate_float (PyFloat 0.7) kvs "temperature"
     = Some (temperature chat_request)
  /\ optional_field validate_float (PyFloat 0.95) kvs "top_p"
     = Some (top_p chat_request)
  /\ optional_field validate_float (PyInt 0) kvs "frequency_penalty"
     = Some (frequency_penalty chat_request)
  /\ optional_field validate_float (PyInt 0) kvs "presence_penalty"
     = Some (presence_penalty chat_request)
  /\ optional_field validate_list PyNone kvs "stop" = Some (stop chat_request)
  /\ optional_field validate_bool (PyBool false) kvs "stream"
     = Some (stream chat_request).
Proof.
  intros Hvalid. unfold validate_ChatRequest in Hvalid.
  repeat match type of Hvalid with
         | context [mbind _ ?o] => destruct o eqn:?; simpl in Hvalid; [|done]
         end.
  injection Hvalid as <-. simpl. repeat split; assumption.
Qed.

(** X9.  For each generation knob of a body that passes validation: when
    the key is absent the service receives the default the schema declares,
    and when the key is given as [null] the service receives [None], not
    the default.  The defaults of the gateway's own [kwargs.get] never apply
    to a request that comes through the boundary. *)
Theorem null_knob_is_not_defaulted `{Libs} (chat_api : ChatAPI)
    (kvs : list (string * pyval)) (chat_request : ChatRequest) (w : world)
    (name : string) (dflt : pyval) :
  (name, dflt) ∈ knob_defaults ->
  validate_ChatRequest (PyDict kvs) = Some chat_request ->
  (assoc name kvs = None ->
   upstream_param name (snd (post_chat chat_api (PyDict kvs) w)) = Some dflt)
  /\ (assoc name kvs = Some PyNone ->
      upstream_param name (snd (post_chat chat_api (PyDict kvs) w)) = Some PyNone).
Proof.
  intros Hknob Hvalid.
  destruct (post_chat_validated chat_api _ _ w Hvalid) as [_ Hsent].
  rewrite endpoint_kwargs_params in Hsent.
  destruct (validated_knobs _ _ Hvalid) as (K1 & K2 & K3 & K4 & K5 & K6 & K7).
  unfold upstream_param. rewrite Hsent, last_snoc. clear Hsent.
  unfold optional_field in *. unfold knob_defaults in Hknob.
  repeat (apply elem_of_cons in Hknob as [[= -> ->]|Hknob];
          [split; intros Hkey; rewrite Hkey in *; simpl; congruence|]).
  by apply elem_of_nil in Hknob.
Qed.

Lemma null_max_tokens_reaches_the_service :
  upstream_param "max_tokens"
    (snd (post_chat (test_api healthy_upstream)
            (PyDict [("user_message", PyStr "Hello"); ("max_tokens", PyNone)])
            empty_world))
  = Some PyNone.
Proof.
  apply (proj2 (null_knob_is_not_defaulted (test_api healthy_upstream)
                  [("user_message", PyStr "Hello"); ("max_tokens", PyNone)]
                  {| user_message := "Hello"; system_message := None;
                     max_tokens := PyNone; temperature := PyFloat 0.7;
                     top_p := PyFloat 0.95; frequency_penalty := PyInt 0;
                     presence_penalty := PyInt 0; stop := PyNone;
                     stream := PyBool false |}
                  empty_world "max_tokens" (PyInt 800)
                  ltac:(unfold knob_defaults; constructor) eq_refl)).
  reflexivity.
Defined.

(** X10.  The gateway reads seven keyword arguments and no other: any
    further keyword argument is dropped, it changes neither what the
    service receives nor what the gateway returns. *)
Theorem other_keyword_arguments_are_dropped `{Libs} (self : ChatAPI)
    (user_message : string) (system_message : option string)
    (kwargs : gmap string pyval) (k : string) (v : pyval) (w : world) :
  k ∉ gateway_knobs ->
  create_chat_completion self user_message system_message (<[k:=v]> kwargs) w
  = create_chat_completion self user_message system_message kwargs w.
Proof.
  intros Hk.
  assert (forall name, name ∈ gateway_knobs ->
            <[k:=v]> kwargs !! name = kwargs !! name) as Hskip.
  { intros name Hname. apply lookup_insert_ne. by intros ->. }
  unfold create_chat_completion, kwargs_get.
  rewrite !Hskip by (unfold gateway_knobs; repeat constructor).
  reflexivity.
Qed.

Lemma a_seed_is_dropped :
  create_chat_completion (test_api healthy_upstream) "Hello" None
    (<["seed":=PyInt 1]> ∅) empty_world
  = create_chat_completion (test_api healthy_upstream) "Hello" None
      ∅ empty_world.
Proof.
  apply (other_keyword_arguments_are_dropped (test_api healthy_upstream)
           "Hello" None ∅ "seed" (PyInt 1) empty_world).
  unfold gateway_knobs. intros Hin.
  repeat (apply elem_of_cons in Hin as [Hin|Hin]; [discriminate Hin|]).
  by apply elem_of_nil in Hin.
Defined.

(** X11.  When the completion call raises while a validated request is
    handled, the gateway swallows the exception without logging it; what
    the boundary logs afterwards is, once, the [HTTPException] built around
    the error record.  The traceback of the call's own exception never
    reaches stderr. *)
Theorem upstream_exception_is_not_logged `{Libs} (chat_api : ChatAPI)
    (body : pyval) (chat_request : ChatRequest) (w : world) (cause : exn) :
  validate_ChatRequest body = Some chat_request ->
  completions_create (client chat_api)
    (gateway_params chat_api (user_message chat_request)
       (system_message chat_request) (endpoint_kwargs chat_request))
  = Raise cause ->
  stderr (snd (create_chat_completion chat_api (user_message chat_request)
                 (system_message chat_request) (endpoint_kwargs chat_request) w))
  = stderr w
  /\ stderr (snd (post_chat chat_api body w))
     = stderr w ++ [HTTPException 500 (error_record cause)].
Proof.
  intros Hvalid Hup. split.
  - by rewrite create_chat_completion_world.
  - pose proof (create_chat_completion_raises _ _ _ _ w _ Hup) as Hfst.
    unfold post_chat. rewrite Hvalid.
    by rewrite (chat_endpoint_on_error _ _ _ _ Hfst (error_record_has_error cause)).
Qed.

Lemma rate_limit_is_logged_as_http_exception :
  stderr (snd (create_chat_completion (test_api failing_upstream) "Hello" None
                 (endpoint_kwargs hello_request) empty_world))
  = stderr empty_world
  /\ stderr (snd (post_chat (test_api failing_upstream) hello_body empty_world))
     = stderr empty_world
       ++ [HTTPException 500
             (@error_record (test_libs failing_upstream)
                (Exc "RateLimitError" "quota exceeded"))].
Proof.
  apply (upstream_exception_is_not_logged (test_api failing_upstream)
           hello_body hello_request empty_world
           (Exc "RateLimitError" "quota exceeded"));
    reflexivity.
Defined.

(** ** The liveness route *)

(** [GET /health] answers 200 with the fixed payload and touches neither
    the service nor stderr. *)
Lemma get_health_answer (w : world) :
  get_health w = (Response 200 (PyDict [("status", PyStr "healthy")]), w).
Proof. reflexivity. Qed.
